(** * The query-submission lifecycle of the legal document search portal

    A shallow embedding of [frontend/src/App.jsx]: the four [useState]
    cells of the [App] component, the asynchronous handler [handleSearch],
    the key handler [handleKeyPress], the parts of the JSX that decide which
    panel is shown and which control is disabled, and the event loop that
    drives them. *)

From Stdlib Require Import List Bool Arith NArith String Ascii QArith Lia.
From Stdlib Require DecimalString.
Import ListNotations.

Local Open Scope N_scope.

(** ** The host platform: strings, JSON values, truthiness *)

Set Warnings "-register-all".

Module JS.

(** A JavaScript string is a sequence of UTF-16 code units. *)
Definition js_string := list N.

(** The code units of an ASCII literal of the source text. *)
Definition lit (s : string) : js_string :=
  map N_of_ascii (list_ascii_of_string s).

(** [WhiteSpace] and [LineTerminator] of ECMAScript, the code points that
    [String.prototype.trim] strips. *)
Definition is_white_space (c : N) : bool :=
  (c =? 9) || (c =? 10) || (c =? 11) || (c =? 12) || (c =? 13)
  || (c =? 32) || (c =? 160) || (c =? 5760)
  || ((8192 <=? c) && (c <=? 8202))
  || (c =? 8232) || (c =? 8233) || (c =? 8239) || (c =? 8287)
  || (c =? 12288) || (c =? 65279).

Fixpoint trimStart (s : js_string) : js_string :=
  match s with
  | c :: s' => if is_white_space c then trimStart s' else s
  | [] => []
  end.

Definition trimEnd (s : js_string) : js_string :=
  rev (trimStart (rev s)).

(** [s.trim()] *)
Definition trim (s : js_string) : js_string := trimEnd (trimStart s).

(** ToBoolean on a string: only the empty string is falsy. *)
Definition string_truthy (s : js_string) : bool :=
  match s with [] => false | _ :: _ => true end.

(** ToString on a non-negative integer Number, as a template literal
    [`${n}`] does. *)
Definition to_decimal (n : N) : js_string :=
  lit (DecimalString.NilZero.string_of_uint (N.to_uint n)).

(** The values [JSON.parse] can produce and [JSON.stringify] consumes.
    [JNull] is also the [null] a state cell starts with. *)
Inductive json : Type :=
| JNull
| JBool (b : bool)
| JNumber (q : Q)
| JString (s : js_string)
| JArray (items : list json)
| JObject (fields : list (js_string * json)).

(** ToBoolean on such a value, as [v && ...] and [!v] compute it. *)
Definition truthy (v : json) : bool :=
  match v with
  | JNull => false
  | JBool b => b
  | JNumber q => negb (Qeq_bool q 0)
  | JString s => string_truthy s
  | JArray _ | JObject _ => true
  end.

(** A value that can be thrown and caught; [message] is [None] when the
    property is undefined. *)
Record js_error : Type := Error { message : option js_string }.

(** [new Error(msg)] *)
Definition new_Error (msg : js_string) : js_error := Error (Some msg).

(** [a || b] where [a] is a string or undefined and [b] a string. *)
Definition or_else (a : option js_string) (b : js_string) : js_string :=
  match a with
  | Some s => if string_truthy s then s else b
  | None => b
  end.

(** How a promise settles. *)
Inductive settled (A : Type) : Type :=
| Fulfilled (a : A)
| Rejected (e : js_error).
Arguments Fulfilled {A} a.
Arguments Rejected {A} e.

(** The [Response] of [fetch]: its status and what the promise of
    [res.json()] settles to. *)
Record Response : Type := mkResponse {
  status : N;
  json_body : settled json
}.

(** [res.ok]: the status is in the range 200-299. *)
Definition ok (res : Response) : bool :=
  (200 <=? status res) && (status res <=? 299).

(** The arguments of one [fetch] call. [body] is the value handed to
    [JSON.stringify]; the text on the wire is the host's serialisation
    of it. *)
Record Request : Type := mkRequest {
  url : js_string;
  method : js_string;
  headers : list (js_string * js_string);
  body : json
}.

End JS.
Import JS.

(** ** The component's state and the computations of its handlers *)

(** The four [useState] cells of [App]. *)
Record AppState : Type := mkState {
  query : js_string;
  response : json;
  loading : bool;
  error : option js_string
}.

(** [useState("")], [useState(null)], [useState(false)], [useState(null)]. *)
Definition initial_state : AppState :=
  {| query := []; response := JNull; loading := false; error := None |}.

(** A call of one of the four state setters. *)
Inductive update : Type :=
| SetQuery (v : js_string)
| SetResponse (v : json)
| SetLoading (b : bool)
| SetError (v : option js_string).

Definition apply_update (st : AppState) (u : update) : AppState :=
  match u with
  | SetQuery v =>
      {| query := v; response := response st; loading := loading st; error := error st |}
  | SetResponse v =>
      {| query := query st; response := v; loading := loading st; error := error st |}
  | SetLoading b =>
      {| query := query st; response := response st; loading := b; error := error st |}
  | SetError v =>
      {| query := query st; response := response st; loading := loading st; error := v |}
  end.

(** A setter call queues an update; React applies the updates queued by
    one run of a handler, in order, in a single render when the run
    yields (the batching of an event handler, which a root made with
    [createRoot] extends to the runs resumed by a promise; the entry file
    that makes the root is not among the sources). The closure that ran
    kept reading the cells of the render it was created in. *)
Definition commit (st : AppState) (us : list update) : AppState :=
  fold_left apply_update us st.

(** An asynchronous computation: it returns, throws, calls a setter and
    goes on, or suspends on the promise of [fetch(...)] or of
    [res.json()]. *)
Inductive Proc (A : Type) : Type :=
| Ret (a : A)
| Throw (e : js_error)
| Call (u : update) (k : Proc A)
| Fetch (r : Request) (k : settled Response -> Proc A)
| Json (res : Response) (k : settled json -> Proc A).
Arguments Ret {A} a.
Arguments Throw {A} e.
Arguments Call {A} u k.
Arguments Fetch {A} r k.
Arguments Json {A} res k.

Fixpoint bind {A B : Type} (p : Proc A) (f : A -> Proc B) : Proc B :=
  match p with
  | Ret a => f a
  | Throw e => Throw e
  | Call u k => Call u (bind k f)
  | Fetch r k => Fetch r (fun x => bind (k x) f)
  | Json res k => Json res (fun x => bind (k x) f)
  end.

Declare Scope proc_scope.
Delimit Scope proc_scope with proc.
Notation "x <- p ;; q" := (bind p (fun x => q))
  (at level 61, p at next level, right associativity) : proc_scope.
Notation "p ;; q" := (bind p (fun _ => q))
  (at level 61, right associativity) : proc_scope.
Local Open Scope proc_scope.

(** [try { body } catch (err) { handler err }] *)
Fixpoint try_catch {A : Type} (body : Proc A) (handler : js_error -> Proc A) : Proc A :=
  match body with
  | Ret a => Ret a
  | Throw e => handler e
  | Call u k => Call u (try_catch k handler)
  | Fetch r k => Fetch r (fun x => try_catch (k x) handler)
  | Json res k => Json res (fun x => try_catch (k x) handler)
  end.

(** [try { body } finally { fin }]: [fin] runs on both exits and the
    completion of [body] is kept unless [fin] itself throws. *)
Fixpoint finally {A : Type} (body : Proc A) (fin : Proc unit) : Proc A :=
  match body with
  | Ret a => fin ;; Ret a
  | Throw e => fin ;; Throw e
  | Call u k => Call u (finally k fin)
  | Fetch r k => Fetch r (fun x => finally (k x) fin)
  | Json res k => Json res (fun x => finally (k x) fin)
  end.

Notation "'try' body 'catch' err => handler 'finally' fin" :=
  (finally (try_catch body (fun err => handler)) fin)
  (at level 62, err name, body at level 61, handler at level 61, fin at level 61) : proc_scope.

Definition setQuery (v : js_string) : Proc unit := Call (SetQuery v) (Ret tt).
Definition setResponse (v : json) : Proc unit := Call (SetResponse v) (Ret tt).
Definition setLoading (b : bool) : Proc unit := Call (SetLoading b) (Ret tt).
Definition setError (v : option js_string) : Proc unit := Call (SetError v) (Ret tt).

(** Awaiting a promise: its value when fulfilled, a throw when rejected. *)
Definition await {A : Type} (s : settled A) : Proc A :=
  match s with
  | Fulfilled a => Ret a
  | Rejected e => Throw e
  end.

(** [await fetch(url, { method, headers, body })] *)
Definition fetch (r : Request) : Proc Response := Fetch r await.

(** [await res.json()] *)
Definition res_json (res : Response) : Proc json := Json res await.

(** ** The handlers of [App.jsx] *)

Definition handleSearch (st : AppState) : Proc unit :=
  if negb (string_truthy (trim (query st))) then
    setError (Some (lit "Please enter a search query"))
  else
    setLoading true ;;
    setError None ;;
    setResponse JNull ;;
    (try
      res <- fetch {| url := lit "http://localhost:8000/generate";
                      method := lit "POST";
                      headers := [(lit "Content-Type", lit "application/json")];
                      body := JObject [(lit "query", JString (trim (query st)))] |} ;;
      (if negb (ok res)
       then Throw (new_Error (lit "HTTP error! status: " ++ to_decimal (status res)))
       else Ret tt) ;;
      data <- res_json res ;;
      setResponse data
    catch err =>
      setError (Some (or_else (message err)
        (lit "Failed to fetch response. Please ensure the backend is running.")))
    finally
      setLoading false).

(** [e.key === "Enter"] *)
Definition is_Enter (key : js_string) : bool :=
  if list_eq_dec N.eq_dec key (lit "Enter") then true else false.

Definition handleKeyPress (st : AppState) (key : js_string) : Proc unit :=
  if is_Enter key && negb (loading st) then handleSearch st else Ret tt.

(** [onChange={(e) => setQuery(e.target.value)}] *)
Definition handleChange (value : js_string) : Proc unit := setQuery value.

(** ** What the JSX shows for given cells *)

Record View : Type := mkView {
  input_disabled : bool;      (* <input disabled={loading}> *)
  button_disabled : bool;     (* <button disabled={loading}> *)
  searching : bool;           (* loading ? "Searching..." : "Search" *)
  error_panel : bool;         (* error && (...) *)
  results_panel : bool;       (* response && (...) *)
  initial_panel : bool        (* !response && !loading && !error *)
}.

Definition error_truthy (e : option js_string) : bool :=
  match e with
  | Some s => string_truthy s
  | None => false
  end.

Definition render (st : AppState) : View :=
  {| input_disabled := loading st;
     button_disabled := loading st;
     searching := loading st;
     error_panel := error_truthy (error st);
     results_panel := truthy (response st);
     initial_panel :=
       negb (truthy (response st)) && negb (loading st)
       && negb (error_truthy (error st)) |}.

(** ** The event loop *)

(** Where one run of a computation stops. *)
Inductive pause : Type :=
| Finished
| Uncaught (e : js_error)
| AtFetch (r : Request) (k : settled Response -> Proc unit)
| AtJson (res : Response) (k : settled json -> Proc unit).

(** Runs a computation up to its next suspension: the setter calls it made,
    in order, and where it stopped. *)
Fixpoint segment (p : Proc unit) : list update * pause :=
  match p with
  | Ret _ => ([], Finished)
  | Throw e => ([], Uncaught e)
  | Call u k => let (us, s) := segment k in (u :: us, s)
  | Fetch r k => ([], AtFetch r k)
  | Json res k => ([], AtJson res k)
  end.

(** A computation waiting for a promise. *)
Inductive Suspended : Type :=
| AwaitingFetch (k : settled Response -> Proc unit)
| AwaitingJson (res : Response) (k : settled json -> Proc unit).

(** The page: the committed cells, the computations in flight, and two
    journals, of the requests handed to [fetch] and of the setter calls
    made, oldest first. *)
Record Config : Type := mkConfig {
  cells : AppState;
  pending : list Suspended;
  sent : list Request;
  history : list update
}.

Definition initial_config : Config :=
  {| cells := initial_state; pending := []; sent := []; history := [] |}.

(** Runs [p] to its next suspension on top of [c] and commits its setter
    calls in one batch. *)
Definition run (p : Proc unit) (c : Config) : Config :=
  let (us, s) := segment p in
  let st := commit (cells c) us in
  let h := history c ++ us in
  match s with
  | Finished | Uncaught _ =>
      {| cells := st; pending := pending c; sent := sent c; history := h |}
  | AtFetch r k =>
      {| cells := st; pending := pending c ++ [AwaitingFetch k];
         sent := sent c ++ [r]; history := h |}
  | AtJson res k =>
      {| cells := st; pending := pending c ++ [AwaitingJson res k];
         sent := sent c; history := h |}
  end.

Fixpoint remove_nth {A : Type} (i : nat) (l : list A) : list A :=
  match i, l with
  | _, [] => []
  | O, _ :: l' => l'
  | S i', x :: l' => x :: remove_nth i' l'
  end.

Definition take_pending (i : nat) (c : Config) : Config :=
  {| cells := cells c; pending := remove_nth i (pending c);
     sent := sent c; history := history c |}.

(** What can happen to the page: the user edits the input, clicks the
    button or presses a key in the input; the promise of the [i]-th
    computation in flight settles. *)
Inductive event : Type :=
| Change (value : js_string)
| Click
| KeyPress (key : js_string)
| FetchSettles (i : nat) (r : settled Response)
| JsonSettles (i : nat).

(** A disabled control dispatches no event to its handler. *)
Definition dispatch (ev : event) (c : Config) : Config :=
  let v := render (cells c) in
  match ev with
  | Change value =>
      if input_disabled v then c else run (handleChange value) c
  | Click =>
      if button_disabled v then c else run (handleSearch (cells c)) c
  | KeyPress key =>
      if input_disabled v then c else run (handleKeyPress (cells c) key) c
  | FetchSettles i r =>
      match nth_error (pending c) i with
      | Some (AwaitingFetch k) => run (k r) (take_pending i c)
      | _ => c
      end
  | JsonSettles i =>
      match nth_error (pending c) i with
      | Some (AwaitingJson res k) => run (k (json_body res)) (take_pending i c)
      | _ => c
      end
  end.

Definition dispatch_all (evs : list event) (c : Config) : Config :=
  fold_left (fun c ev => dispatch ev c) evs c.

(** The configurations the page can be in. *)
Inductive reachable : Config -> Prop :=
| reachable_initial : reachable initial_config
| reachable_dispatch (ev : event) (c : Config) :
    reachable c -> reachable (dispatch ev c).

(** [submit]: one invocation of [handleSearch] on the page, whatever the
    controls allow. *)
Definition submit (c : Config) : Config := run (handleSearch (cells c)) c.

(** The request's whole life after [submit]: the promise of [fetch]
    settles with [r] and then, if the handler asked for it, the promise of
    [res.json()] settles. [i] is the position of the request among those
    in flight. *)
Definition resolve (i : nat) (r : settled Response) (c : Config) : Config :=
  dispatch (JsonSettles i) (dispatch (FetchSettles i r) c).

(** ** Names for the literals of the handler *)

Definition validation_message : js_string := lit "Please enter a search query".

Definition fallback_message : js_string :=
  lit "Failed to fetch response. Please ensure the backend is running.".

Definition http_error_message (code : N) : js_string :=
  lit "HTTP error! status: " ++ to_decimal code.

Definition search_request (q : js_string) : Request :=
  {| url := lit "http://localhost:8000/generate";
     method := lit "POST";
     headers := [(lit "Content-Type", lit "application/json")];
     body := JObject [(lit "query", JString q)] |}.

(** The message the [catch] block stores for a caught [err]. *)
Definition caught_message (err : js_error) : js_string :=
  or_else (message err) fallback_message.

(** ** The two points where [handleSearch] is resumed *)

(** The rest of [handleSearch] once the promise of [fetch] has settled. *)
Definition after_fetch (x : settled Response) : Proc unit :=
  try
    res <- await x ;;
    (if negb (ok res)
     then Throw (new_Error (lit "HTTP error! status: " ++ to_decimal (status res)))
     else Ret tt) ;;
    data <- res_json res ;;
    setResponse data
  catch err =>
    setError (Some (or_else (message err)
      (lit "Failed to fetch response. Please ensure the backend is running.")))
  finally
    setLoading false.

(** The rest of [handleSearch] once the promise of [res.json()] has
    settled. *)
Definition after_json (x : settled json) : Proc unit :=
  try
    data <- await x ;;
    setResponse data
  catch err =>
    setError (Some (or_else (message err)
      (lit "Failed to fetch response. Please ensure the backend is running.")))
  finally
    setLoading false.

(** The setter calls [handleSearch] makes after [submit], over the whole
    settlement [r] of its request. *)
Definition settle_updates (r : settled Response) : list update :=
  match r with
  | Rejected e => [SetError (Some (caught_message e)); SetLoading false]
  | Fulfilled res =>
      if ok res then
        match json_body res with
        | Fulfilled data => [SetResponse data; SetLoading false]
        | Rejected e => [SetError (Some (caught_message e)); SetLoading false]
        end
      else [SetError (Some (http_error_message (status res))); SetLoading false]
  end.

(** ** Vocabulary of the lifecycle *)

(** The request could not complete: the promise of [fetch] was rejected,
    or the response came with a success status and a body that does not
    decode. [e] is the underlying failure. *)
Inductive transport_failure : settled Response -> js_error -> Prop :=
| fetch_rejected (e : js_error) :
    transport_failure (Rejected e) e
| body_undecodable (res : Response) (e : js_error) :
    ok res = true -> json_body res = Rejected e ->
    transport_failure (Fulfilled res) e.

(** A setter call that clears the loading flag. *)
Definition clears_loading (u : update) : bool :=
  match u with
  | SetLoading false => true
  | _ => false
  end.

(** How many of Loading, Success, Error and Idle the page displays: the
    spinner, the results panel, the error banner, the initial panel. *)
Definition active_states (v : View) : nat :=
  (Nat.b2n (searching v) + Nat.b2n (results_panel v)
   + Nat.b2n (error_panel v) + Nat.b2n (initial_panel v))%nat.

(** A computation in flight is [handleSearch] at one of its two awaits. *)
Definition in_flight_ok (s : Suspended) : Prop :=
  s = AwaitingFetch after_fetch \/ exists res, s = AwaitingJson res after_json.

(** What holds of every configuration the controls let the page reach. *)
Definition consistent (c : Config) : Prop :=
  if loading (cells c) then
    response (cells c) = JNull /\ error (cells c) = None
    /\ exists s, pending c = [s] /\ in_flight_ok s
  else
    pending c = []
    /\ (truthy (response (cells c)) = false
        \/ error (cells c) = None
        \/ error (cells c) = Some validation_message).

(** ** Sample data *)

Definition sample_body : json :=
  JObject [(lit "summary", JString (lit "S")); (lit "relevant_docs", JArray [])].

Definition sample_ok : Response :=
  {| status := 200; json_body := Fulfilled sample_body |}.

Definition sample_not_found : Response :=
  {| status := 404; json_body := Rejected (Error None) |}.

Definition sample_garbled : Response :=
  {| status := 200;
     json_body := Rejected (new_Error (lit "Unexpected token < in JSON")) |}.

(** The page after the user typed [" contract law "]. *)
Definition sample_typed : Config :=
  dispatch (Change (lit " contract law ")) initial_config.

(** The page after a blank input was typed. *)
Definition sample_blank : Config :=
  dispatch (Change (lit "   ")) initial_config.

(** The page while the search for ["contract law"] is in flight. *)
Definition sample_searching : Config := dispatch Click sample_typed.

(** A successful search, then the input is emptied and Search is clicked. *)
Definition stale_result_events : list event :=
  [Change (lit "contract law"); Click;
   FetchSettles 0 (Fulfilled sample_ok); JsonSettles 0;
   Change []; Click].

(** The page after those events: it holds a result and the validation
    message. *)
Definition sample_stale : Config := dispatch_all stale_result_events initial_config.

(** The user then types a new query. *)
Definition sample_retry : Config := dispatch (Change (lit "tort")) sample_stale.

(** ** The transitions of the lifecycle *)

(** A setter call that raises the loading flag. *)
Definition raises_loading (u : update) : bool :=
  match u with
  | SetLoading true => true
  | _ => false
  end.

(** The two batches of setter calls that end a request: an error message,
    never empty, or a parsed body, and the loading flag down. *)
Inductive closing_updates : list update -> Prop :=
| closing_error (m : js_string) :
    string_truthy m = true ->
    closing_updates [SetError (Some m); SetLoading false]
| closing_result (data : json) :
    closing_updates [SetResponse data; SetLoading false].

(** The moves of the page, as the handlers make them: the input is
    edited; a submission is refused by the guard of [handleSearch]; a
    submission sends its request; the response arrives with a success
    status and its body is awaited; the request ends. *)
Inductive step (c : Config) : Config -> Prop :=
| step_edit (v : js_string) :
    loading (cells c) = false ->
    step c {| cells := {| query := v; response := response (cells c);
                          loading := false; error := error (cells c) |};
              pending := pending c; sent := sent c;
              history := history c ++ [SetQuery v] |}
| step_refuse :
    loading (cells c) = false ->
    trim (query (cells c)) = [] ->
    step c {| cells := {| query := query (cells c); response := response (cells c);
                          loading := false; error := Some validation_message |};
              pending := pending c; sent := sent c;
              history := history c ++ [SetError (Some validation_message)] |}
| step_search :
    loading (cells c) = false ->
    trim (query (cells c)) <> [] ->
    step c {| cells := {| query := query (cells c); response := JNull;
                          loading := true; error := None |};
              pending := pending c ++ [AwaitingFetch after_fetch];
              sent := sent c ++ [search_request (trim (query (cells c)))];
              history := history c ++ [SetLoading true; SetError None; SetResponse JNull] |}
| step_answer (res : Response) :
    loading (cells c) = true ->
    pending c = [AwaitingFetch after_fetch] ->
    ok res = true ->
    step c {| cells := cells c; pending := [AwaitingJson res after_json];
              sent := sent c; history := history c |}
| step_close (us : list update) :
    loading (cells c) = true ->
    closing_updates us ->
    step c {| cells := commit (cells c) us; pending := [];
              sent := sent c; history := history c ++ us |}.

(** An event that asks for a search: a click on the button, Enter in the
    input. *)
Definition asks_search (ev : event) : bool :=
  match ev with
  | Click => true
  | KeyPress key => is_Enter key
  | _ => false
  end.

(** ** The results panel of the JSX *)

(** The own property [k] of an object made by [JSON.parse]; a name that
    occurs twice holds its last value. *)
Definition own_property (fields : list (js_string * json)) (k : js_string) : option json :=
  fold_left
    (fun found kv => if list_eq_dec N.eq_dec (fst kv) k then Some (snd kv) else found)
    fields None.

(** [v.k] for the names the JSX reads ([summary], [relevant_docs],
    [title], [excerpt], [relevance_score], [doc_id]), none of which a
    built-in prototype defines: [None] when the access throws (on [null]),
    [Some None] when it yields [undefined]. *)
Definition get (v : json) (k : js_string) : option (option json) :=
  match v with
  | JNull => None
  | JObject fields => Some (own_property fields k)
  | JBool _ | JNumber _ | JString _ | JArray _ => Some None
  end.

(** What React accepts as a child [{v}]: text, numbers, the values that
    render nothing, and arrays of such; a plain object is refused with an
    exception. *)
Fixpoint valid_child (v : json) : bool :=
  match v with
  | JNull | JBool _ | JNumber _ | JString _ => true
  | JArray items => forallb valid_child items
  | JObject _ => false
  end.

(** The same for a value that may be [undefined], which renders nothing. *)
Definition child_ok (v : option json) : bool :=
  match v with
  | Some v => valid_child v
  | None => true
  end.

(** One card of the list: the children [{doc.title}], [{doc.excerpt}] and
    [{doc.doc_id}], and the operand [doc.relevance_score] of the
    percentage, whose arithmetic on doubles and [toFixed] never throw and
    are not modelled. *)
Record Card : Type := mkCard {
  card_title : option json;
  card_excerpt : option json;
  card_relevance_of : option json;
  card_doc_id : option json
}.

(** The callback of [response.relevant_docs.map((doc, index) => ...)];
    [None] when rendering the card throws. *)
Definition render_card (doc : json) : option Card :=
  match get doc (lit "title"), get doc (lit "excerpt"),
        get doc (lit "relevance_score"), get doc (lit "doc_id") with
  | Some title, Some excerpt, Some score, Some doc_id =>
      if child_ok title && child_ok excerpt && child_ok doc_id
      then Some {| card_title := title; card_excerpt := excerpt;
                   card_relevance_of := score; card_doc_id := doc_id |}
      else None
  | _, _, _, _ => None
  end.

(** [items.map(f)] where [f] may throw. *)
Fixpoint map_throwing {A B : Type} (f : A -> option B) (items : list A) : option (list B) :=
  match items with
  | [] => Some []
  | x :: rest =>
      match f x with
      | Some y =>
          match map_throwing f rest with
          | Some ys => Some (y :: ys)
          | None => None
          end
      | None => None
      end
  end.

Record Results : Type := mkResults {
  summary_child : option json;     (* {response.summary} *)
  cards : list Card                (* response.relevant_docs.map(...) *)
}.

(** The panel under [response && (...)] for a truthy [response]; [None]
    when rendering it throws: [relevant_docs] is not an array (calling
    [.map] is then a TypeError), a document is [null], or a child is a
    plain object. *)
Definition render_results (response : json) : option Results :=
  match get response (lit "summary"), get response (lit "relevant_docs") with
  | Some summary, Some (Some (JArray docs)) =>
      match map_throwing render_card docs with
      | Some cs =>
          if child_ok summary
          then Some {| summary_child := summary; cards := cs |}
          else None
      | None => None
      end
  | _, _ => None
  end.

(** [{response && (...)}]: nothing of the panel for a falsy [response]. *)
Definition results_section (st : AppState) : option (option Results) :=
  if truthy (response st)
  then option_map Some (render_results (response st))
  else Some None.



(** ** More sample data *)

Definition sample_document : json :=
  JObject [(lit "doc_id", JString (lit "D1"));
           (lit "title", JString (lit "Contract Basics"));
           (lit "excerpt", JString (lit "..."));
           (lit "relevance_score", JNumber (92 # 100))].

Definition sample_full_body : json :=
  JObject [(lit "summary", JString (lit "Contracts require offer."));
           (lit "relevant_docs", JArray [sample_document; sample_document])].

(** A success status with a body that has no [relevant_docs]. *)
Definition sample_shapeless : Response :=
  {| status := 200;
     json_body := Fulfilled (JObject [(lit "detail", JString (lit "no documents"))]) |}.

(** The page after a search was answered with status 404. *)
Definition sample_failed : Config :=
  resolve 0 (Fulfilled sample_not_found) sample_searching.

(** * Properties *)

(** ** Trimming *)

Lemma trimStart_nil_iff (s : js_string) :
  trimStart s = [] <-> forallb is_white_space s = true.
Proof.
  induction s as [|c s IH]; simpl.
  - tauto.
  - destruct (is_white_space c); simpl.
    + exact IH.
    + split; discriminate.
Qed.

Lemma trim_nil_iff (s : js_string) :
  trim s = [] <-> forallb is_white_space s = true.
Proof.
  unfold trim, trimEnd. rewrite <- trimStart_nil_iff. split.
  - intros H.
    destruct (trimStart s) as [|c t] eqn:E; [reflexivity|].
    apply (f_equal (@rev N)) in H. rewrite rev_involutive in H. simpl in H.
    assert (Hw : is_white_space c = false).
    { destruct s as [|d s']; simpl in E; [discriminate|].
      revert E. generalize d s'. clear.
      intros d s'; revert d; induction s' as [|e s' IH]; intros d; simpl.
      - destruct (is_white_space d) eqn:W; [discriminate|congruence].
      - destruct (is_white_space d) eqn:W.
        + apply IH.
        + congruence. }
    assert (Hl : trimStart (rev (c :: t)) <> []).
    { rewrite trimStart_nil_iff, forallb_forall. intros A.
      specialize (A c). rewrite <- in_rev in A.
      rewrite A in Hw; [discriminate | left; reflexivity]. }
    contradiction.
  - intros ->. reflexivity.
Qed.

(** ** One run of the handlers *)

Lemma segment_handleSearch_empty (st : AppState) :
  trim (query st) = [] ->
  segment (handleSearch st) = ([SetError (Some validation_message)], Finished).
Proof. intros E. unfold handleSearch. rewrite E. reflexivity. Qed.

Lemma segment_handleSearch_nonempty (st : AppState) :
  trim (query st) <> [] ->
  segment (handleSearch st) =
    ([SetLoading true; SetError None; SetResponse JNull],
     AtFetch (search_request (trim (query st))) after_fetch).
Proof.
  intros E. unfold handleSearch.
  destruct (trim (query st)) as [|c t]; [congruence|]. reflexivity.
Qed.

Lemma segment_after_fetch_rejected (e : js_error) :
  segment (after_fetch (Rejected e)) =
    ([SetError (Some (caught_message e)); SetLoading false], Finished).
Proof. reflexivity. Qed.

Lemma segment_after_fetch_not_ok (res : Response) :
  ok res = false ->
  segment (after_fetch (Fulfilled res)) =
    ([SetError (Some (http_error_message (status res))); SetLoading false],
     Finished).
Proof. intros E. unfold after_fetch. simpl. rewrite E. reflexivity. Qed.

Lemma segment_after_fetch_ok (res : Response) :
  ok res = true ->
  segment (after_fetch (Fulfilled res)) = ([], AtJson res after_json).
Proof. intros E. unfold after_fetch. simpl. rewrite E. reflexivity. Qed.

Lemma segment_after_json_fulfilled (data : json) :
  segment (after_json (Fulfilled data)) =
    ([SetResponse data; SetLoading false], Finished).
Proof. reflexivity. Qed.

Lemma segment_after_json_rejected (e : js_error) :
  segment (after_json (Rejected e)) =
    ([SetError (Some (caught_message e)); SetLoading false], Finished).
Proof. reflexivity. Qed.

(** ** One step of the page *)

Lemma nth_error_app_last {A : Type} (l : list A) (x : A) :
  nth_error (l ++ [x]) (List.length l) = Some x.
Proof. induction l as [|y l IH]; simpl; [reflexivity | exact IH]. Qed.

Lemma nth_error_length_none {A : Type} (l : list A) :
  nth_error l (List.length l) = None.
Proof. induction l as [|y l IH]; simpl; [reflexivity | exact IH]. Qed.

Lemma remove_nth_app_last {A : Type} (l : list A) (x : A) :
  remove_nth (List.length l) (l ++ [x]) = l.
Proof. induction l as [|y l IH]; simpl; [reflexivity | now rewrite IH]. Qed.

Lemma submit_empty (c : Config) :
  trim (query (cells c)) = [] ->
  submit c =
    {| cells := {| query := query (cells c); response := response (cells c);
                   loading := loading (cells c);
                   error := Some validation_message |};
       pending := pending c; sent := sent c;
       history := history c ++ [SetError (Some validation_message)] |}.
Proof.
  intros E. unfold submit, run.
  rewrite (segment_handleSearch_empty _ E). reflexivity.
Qed.

Lemma submit_nonempty (c : Config) :
  trim (query (cells c)) <> [] ->
  submit c =
    {| cells := {| query := query (cells c); response := JNull;
                   loading := true; error := None |};
       pending := pending c ++ [AwaitingFetch after_fetch];
       sent := sent c ++ [search_request (trim (query (cells c)))];
       history := history c ++ [SetLoading true; SetError None; SetResponse JNull] |}.
Proof.
  intros E. unfold submit, run.
  rewrite (segment_handleSearch_nonempty _ E). reflexivity.
Qed.

(** The whole settlement of a request that waits at the end of the queue. *)
Lemma resolve_in_flight (st : AppState) (l : list Suspended)
    (s : list Request) (h : list update) (r : settled Response) :
  resolve (List.length l) r
    {| cells := st; pending := l ++ [AwaitingFetch after_fetch];
       sent := s; history := h |} =
  {| cells := commit st (settle_updates r); pending := l; sent := s;
     history := h ++ settle_updates r |}.
Proof.
  unfold resolve.
  unfold dispatch at 2. cbn [pending]. rewrite nth_error_app_last.
  unfold take_pending. cbn [pending cells sent history].
  rewrite remove_nth_app_last. unfold run.
  destruct r as [res|e].
  - destruct (ok res) eqn:Hok.
    + rewrite (segment_after_fetch_ok _ Hok). cbn [pending cells sent history commit fold_left].
      unfold dispatch. cbn [pending]. rewrite nth_error_app_last.
      unfold take_pending. cbn [pending cells sent history].
      rewrite remove_nth_app_last. unfold run, settle_updates. rewrite Hok.
      rewrite app_nil_r.
      destruct (json_body res) as [data|e].
      * rewrite segment_after_json_fulfilled. reflexivity.
      * rewrite segment_after_json_rejected. reflexivity.
    + rewrite (segment_after_fetch_not_ok _ Hok).
      unfold dispatch. cbn [pending]. rewrite nth_error_length_none.
      unfold settle_updates. rewrite Hok. reflexivity.
  - rewrite segment_after_fetch_rejected.
    unfold dispatch. cbn [pending]. rewrite nth_error_length_none.
    reflexivity.
Qed.

Lemma resolve_submit (c : Config) (r : settled Response) :
  trim (query (cells c)) <> [] ->
  resolve (List.length (pending c)) r (submit c) =
    {| cells := commit {| query := query (cells c); response := JNull;
                          loading := true; error := None |} (settle_updates r);
       pending := pending c;
       sent := sent c ++ [search_request (trim (query (cells c)))];
       history := (history c ++ [SetLoading true; SetError None; SetResponse JNull])
                  ++ settle_updates r |}.
Proof.
  intros E. rewrite (submit_nonempty _ E). apply resolve_in_flight.
Qed.

(** ** Validation *)

(** C1. When the trimmed input is empty (the input is empty or made of
    white space only), [submit] stores the message "Please enter a search
    query" in the error cell, which the page then displays, and performs no
    network call: no request is sent and none is put in flight. *)
Theorem submit_blank_query (c : Config) :
  trim (query (cells c)) = [] ->
  error (cells (submit c)) = Some (lit "Please enter a search query")
  /\ error_panel (render (cells (submit c))) = true
  /\ sent (submit c) = sent c
  /\ pending (submit c) = pending c.
Proof.
  intros E. rewrite (submit_empty _ E). cbn [cells sent pending error].
  repeat split; reflexivity.
Qed.

Lemma submit_blank_query_witness :
  trim (query (cells sample_blank)) = []
  /\ forallb is_white_space (query (cells sample_blank)) = true
  /\ error (cells (submit sample_blank)) = Some (lit "Please enter a search query")
  /\ sent (submit sample_blank) = [].
Proof.
  split; [reflexivity|]. split; [reflexivity|].
  destruct (submit_blank_query sample_blank) as (He & _ & Hs & _).
  - reflexivity.
  - split; [exact He | exact Hs].
Defined.

(** ** The request *)

(** C2. When the trimmed input is not empty, [submit] issues exactly one
    request, POST to the /generate endpoint with the header Content-Type:
    application/json and a body whose [query] field is the trimmed input;
    however that request settles, the handler sends no other. *)
Theorem submit_sends_one_request (c : Config) :
  trim (query (cells c)) <> [] ->
  let req :=
    {| url := lit "http://localhost:8000/generate";
       method := lit "POST";
       headers := [(lit "Content-Type", lit "application/json")];
       body := JObject [(lit "query", JString (trim (query (cells c))))] |} in
  sent (submit c) = sent c ++ [req]
  /\ forall r, sent (resolve (List.length (pending c)) r (submit c)) = sent c ++ [req].
Proof.
  intros E req. split.
  - rewrite (submit_nonempty _ E). reflexivity.
  - intros r. rewrite (resolve_submit _ r E). reflexivity.
Qed.

Lemma submit_sends_one_request_witness :
  sent (submit sample_typed) =
    [{| url := lit "http://localhost:8000/generate";
        method := lit "POST";
        headers := [(lit "Content-Type", lit "application/json")];
        body := JObject [(lit "query", JString (lit "contract law"))] |}]
  /\ List.length (sent (resolve 0 (Fulfilled sample_ok) (submit sample_typed))) = 1%nat.
Proof.
  destruct (submit_sends_one_request sample_typed) as (H1 & H2).
  - discriminate.
  - split.
    + exact H1.
    + change 0%nat with (List.length (pending sample_typed)).
      rewrite (H2 (Fulfilled sample_ok)). reflexivity.
Defined.

(** ** Settlement *)

(** C3. When the request of a submission is answered with a success status
    and a body that decodes to [data], the page ends with exactly [data] in
    the response cell, no error, and the loading flag down; the results
    panel is displayed whenever [data] is a truthy value, as every object
    is. *)
Theorem success_stores_parsed_body (c : Config) (res : Response) (data : json) :
  trim (query (cells c)) <> [] ->
  ok res = true ->
  json_body res = Fulfilled data ->
  let c' := resolve (List.length (pending c)) (Fulfilled res) (submit c) in
  cells c' = {| query := query (cells c); response := data;
                loading := false; error := None |}
  /\ pending c' = pending c
  /\ render (cells c') =
       {| input_disabled := false; button_disabled := false;
          searching := false; error_panel := false;
          results_panel := truthy data;
          initial_panel := negb (truthy data) |}.
Proof.
  intros E Hok Hbody c'. subst c'. rewrite (resolve_submit _ _ E).
  unfold settle_updates. rewrite Hok, Hbody.
  split; [reflexivity | split; [reflexivity|]].
  unfold render. cbn. destruct (truthy data); reflexivity.
Qed.

Lemma success_stores_parsed_body_witness :
  cells (resolve 0 (Fulfilled sample_ok) (submit sample_typed)) =
    {| query := lit " contract law ";
       response := JObject [(lit "summary", JString (lit "S"));
                            (lit "relevant_docs", JArray [])];
       loading := false; error := None |}
  /\ results_panel (render (cells (resolve 0 (Fulfilled sample_ok) (submit sample_typed)))) = true.
Proof.
  destruct (success_stores_parsed_body sample_typed sample_ok sample_body)
    as (H1 & _ & H3).
  - discriminate.
  - reflexivity.
  - reflexivity.
  - split.
    + exact H1.
    + change (pending sample_typed) with (@nil Suspended) in H3.
      cbn [List.length] in H3. rewrite H3. reflexivity.
Defined.

(** C4. When the request of a submission is answered with a status [code]
    outside 200-299, the page ends in the error state with the message
    "HTTP error! status: " followed by [code] in decimal; the body is not
    read. *)
Theorem http_error_status (c : Config) (res : Response) :
  trim (query (cells c)) <> [] ->
  ok res = false ->
  let c' := resolve (List.length (pending c)) (Fulfilled res) (submit c) in
  cells c' = {| query := query (cells c); response := JNull; loading := false;
                error := Some (lit "HTTP error! status: " ++ to_decimal (status res)) |}
  /\ pending c' = pending c
  /\ error_panel (render (cells c')) = true.
Proof.
  intros E Hok c'. subst c'. rewrite (resolve_submit _ _ E).
  unfold settle_updates. rewrite Hok.
  split; [reflexivity | split; reflexivity].
Qed.

Lemma http_error_status_witness :
  cells (resolve 0 (Fulfilled sample_not_found) (submit sample_typed)) =
    {| query := lit " contract law "; response := JNull; loading := false;
       error := Some (lit "HTTP error! status: 404") |}.
Proof.
  destruct (http_error_status sample_typed sample_not_found) as (H1 & _).
  - discriminate.
  - reflexivity.
  - exact H1.
Defined.

(** C5. On a transport failure [e] (the promise of [fetch] is rejected, or
    the body of a successful response does not decode) the page ends in the
    error state with the message of [e]; it ends with "Failed to fetch
    response. Please ensure the backend is running." in the cases where
    [e] provides no message, its [message] being undefined or empty. *)
Theorem transport_failure_message (c : Config) (r : settled Response) (e : js_error) :
  trim (query (cells c)) <> [] ->
  transport_failure r e ->
  let c' := resolve (List.length (pending c)) r (submit c) in
  cells c' =
    {| query := query (cells c); response := JNull; loading := false;
       error := Some match message e with
                     | Some (u :: m) => u :: m
                     | Some [] | None =>
                         lit "Failed to fetch response. Please ensure the backend is running."
                     end |}
  /\ pending c' = pending c.
Proof.
  intros E F c'. subst c'. rewrite (resolve_submit _ _ E).
  assert (Hc : caught_message e =
               match message e with
               | Some (u :: m) => u :: m
               | _ => fallback_message
               end).
  { unfold caught_message, or_else. destruct (message e) as [[|u m]|]; reflexivity. }
  destruct F as [e|res e Hok Hbody]; unfold settle_updates.
  - split; [|reflexivity]. cbn. now rewrite Hc.
  - rewrite Hok, Hbody. split; [|reflexivity]. cbn. now rewrite Hc.
Qed.

Lemma transport_failure_message_witness :
  error (cells (resolve 0 (Rejected (new_Error (lit "Failed to fetch")))
                  (submit sample_typed)))
    = Some (lit "Failed to fetch")
  /\ error (cells (resolve 0 (Rejected (Error None)) (submit sample_typed)))
    = Some (lit "Failed to fetch response. Please ensure the backend is running.")
  /\ error (cells (resolve 0 (Rejected (new_Error [])) (submit sample_typed)))
    = Some (lit "Failed to fetch response. Please ensure the backend is running.")
  /\ error (cells (resolve 0 (Fulfilled sample_garbled) (submit sample_typed)))
    = Some (lit "Unexpected token < in JSON").
Proof.
  assert (E : trim (query (cells sample_typed)) <> []) by discriminate.
  split; [|split; [|split]].
  - exact (f_equal error (proj1 (transport_failure_message sample_typed _ _ E
      (fetch_rejected (new_Error (lit "Failed to fetch")))))).
  - exact (f_equal error (proj1 (transport_failure_message sample_typed _ _ E
      (fetch_rejected (Error None))))).
  - exact (f_equal error (proj1 (transport_failure_message sample_typed _ _ E
      (fetch_rejected (new_Error []))))).
  - exact (f_equal error (proj1 (transport_failure_message sample_typed _ _ E
      (body_undecodable sample_garbled _ eq_refl eq_refl)))).
Defined.

(** C6. After a submission with a non-empty trimmed input, whichever way
    the request settles (rejected, answered with an error status, answered
    with a body that decodes or with one that does not), the handler
    clears the loading flag exactly once and nothing remains in flight; a
    body that does not decode leaves the page as the same failure of
    [fetch] itself would, in the error state. *)
Theorem loading_cleared_once (c : Config) (r : settled Response) :
  trim (query (cells c)) <> [] ->
  let c1 := submit c in
  let c2 := resolve (List.length (pending c)) r c1 in
  loading (cells c1) = true
  /\ (exists us, history c2 = history c1 ++ us
                 /\ List.length (filter clears_loading us) = 1%nat)
  /\ loading (cells c2) = false
  /\ pending c2 = pending c
  /\ (forall res e, r = Fulfilled res -> ok res = true ->
        json_body res = Rejected e ->
        cells c2 = cells (resolve (List.length (pending c)) (Rejected e) c1)
        /\ error (cells c2) = Some (caught_message e)).
Proof.
  intros E c1 c2. subst c1 c2. rewrite (resolve_submit _ r E).
  split; [rewrite (submit_nonempty _ E); reflexivity|].
  split.
  { exists (settle_updates r). split.
    - rewrite (submit_nonempty _ E). reflexivity.
    - destruct r as [res|e]; unfold settle_updates; [|reflexivity].
      destruct (ok res); [|reflexivity].
      destruct (json_body res); reflexivity. }
  split.
  { destruct r as [res|e]; unfold settle_updates; [|reflexivity].
    destruct (ok res); [|reflexivity].
    destruct (json_body res); reflexivity. }
  split; [reflexivity|].
  intros res e -> Hok Hbody. rewrite (resolve_submit _ (Rejected e) E).
  unfold settle_updates. rewrite Hok, Hbody. split; reflexivity.
Qed.

Lemma loading_cleared_once_witness :
  loading (cells (submit sample_typed)) = true
  /\ loading (cells (resolve 0 (Fulfilled sample_garbled) (submit sample_typed))) = false
  /\ cells (resolve 0 (Fulfilled sample_garbled) (submit sample_typed)) =
     cells (resolve 0 (Rejected (new_Error (lit "Unexpected token < in JSON")))
              (submit sample_typed)).
Proof.
  destruct (loading_cleared_once sample_typed (Fulfilled sample_garbled))
    as (H1 & _ & H3 & _ & H5).
  - discriminate.
  - split; [exact H1|]. split; [exact H3|].
    exact (proj1 (H5 sample_garbled _ eq_refl eq_refl eq_refl)).
Defined.

(** ** Resubmission *)

(** C7. A submission with a non-empty trimmed input, whatever result or
    error message the page held, clears the response and the error in the
    same batch of setter calls that raises the loading flag: the first
    page that shows the spinner shows neither the previous results nor the
    previous error. *)
Theorem resubmit_clears_previous (c : Config) :
  trim (query (cells c)) <> [] ->
  cells (submit c) = {| query := query (cells c); response := JNull;
                        loading := true; error := None |}
  /\ history (submit c) =
       history c ++ [SetLoading true; SetError None; SetResponse JNull]
  /\ render (cells (submit c)) =
       {| input_disabled := true; button_disabled := true; searching := true;
          error_panel := false; results_panel := false;
          initial_panel := false |}.
Proof.
  intros E. rewrite (submit_nonempty _ E).
  split; [reflexivity | split; reflexivity].
Qed.

Lemma resubmit_clears_previous_witness :
  truthy (response (cells sample_retry)) = true
  /\ error (cells sample_retry) = Some validation_message
  /\ response (cells (submit sample_retry)) = JNull
  /\ error (cells (submit sample_retry)) = None
  /\ loading (cells (submit sample_retry)) = true.
Proof.
  split; [reflexivity|]. split; [reflexivity|].
  destruct (resubmit_clears_previous sample_retry) as (H1 & _).
  - discriminate.
  - rewrite H1. split; [reflexivity | split; reflexivity].
Defined.

(** ** The query text *)

Lemma commit_settle_updates_query (st : AppState) (r : settled Response) :
  query (commit st (settle_updates r)) = query st.
Proof.
  destruct r as [res|e]; unfold settle_updates; [|reflexivity].
  destruct (ok res); [|reflexivity].
  destruct (json_body res); reflexivity.
Qed.

(** C10. [submit] never changes the stored query text: not when
    validation fails, and not when the request is sent and then settles,
    whichever way it settles. *)
Theorem submit_keeps_query (c : Config) :
  query (cells (submit c)) = query (cells c)
  /\ forall r : settled Response,
       query (cells (resolve (List.length (pending c)) r (submit c)))
       = query (cells c).
Proof.
  destruct (trim (query (cells c))) as [|u t] eqn:E.
  - rewrite (submit_empty _ E). split; [reflexivity|].
    intros r. unfold resolve, dispatch. cbn [pending].
    rewrite nth_error_length_none. cbn [pending].
    rewrite nth_error_length_none. reflexivity.
  - assert (E' : trim (query (cells c)) <> []) by (rewrite E; discriminate).
    split.
    + rewrite (submit_nonempty _ E'). reflexivity.
    + intros r. rewrite (resolve_submit _ r E'). cbn [cells].
      rewrite commit_settle_updates_query. reflexivity.
Qed.

(** ** What the controls let the page reach *)

Lemma reachable_dispatch_all (evs : list event) (c : Config) :
  reachable c -> reachable (dispatch_all evs c).
Proof.
  revert c. induction evs as [|ev evs IH]; intros c H; simpl.
  - exact H.
  - apply IH. now apply reachable_dispatch.
Qed.

Lemma reachable_iff (c : Config) :
  reachable c <-> exists evs, c = dispatch_all evs initial_config.
Proof.
  split.
  - induction 1 as [|ev c _ [evs ->]].
    + now exists [].
    + exists (evs ++ [ev]). unfold dispatch_all. now rewrite fold_left_app.
  - intros [evs ->]. apply reachable_dispatch_all, reachable_initial.
Qed.

Lemma nth_error_singleton {A : Type} (x : A) (i : nat) :
  nth_error [x] i = match i with O => Some x | S _ => None end.
Proof. destruct i as [|[|i]]; reflexivity. Qed.

Lemma consistent_initial : consistent initial_config.
Proof. unfold consistent. simpl. auto. Qed.

Lemma consistent_submit (c : Config) :
  loading (cells c) = false -> consistent c -> consistent (submit c).
Proof.
  intros L H. unfold consistent in H. rewrite L in H. destruct H as (P & H).
  destruct (trim (query (cells c))) as [|u t] eqn:E.
  - rewrite (submit_empty _ E). unfold consistent. cbn [cells loading pending].
    rewrite L. cbn [response error]. auto.
  - assert (E' : trim (query (cells c)) <> []) by (rewrite E; discriminate).
    rewrite (submit_nonempty _ E'). unfold consistent.
    cbn [cells loading pending response error]. rewrite P.
    repeat split. exists (AwaitingFetch after_fetch). split; [reflexivity|].
    left. reflexivity.
Qed.

Lemma consistent_dispatch (ev : event) (c : Config) :
  consistent c -> consistent (dispatch ev c).
Proof.
  intros H. destruct (loading (cells c)) eqn:L.
  - (* a request is in flight: the controls are disabled *)
    destruct ev as [v| |key|i r|i]; unfold dispatch; cbn [render input_disabled button_disabled];
      rewrite ?L; try exact H.
    + (* the promise of fetch settles *)
      pose proof H as H'. unfold consistent in H'. rewrite L in H'.
      destruct H' as (R & Er & s & P & [->|[res ->]]); rewrite P, nth_error_singleton;
        destruct i; try exact H.
      destruct c as [[q resp ld err] l snt h]. cbn in *. subst.
      unfold take_pending, run. cbn [cells pending sent history remove_nth].
      destruct r as [res|e].
      * destruct (ok res) eqn:Hok.
        -- rewrite (segment_after_fetch_ok _ Hok). unfold consistent. cbn.
           repeat split. eexists. split; [reflexivity|]. right. now exists res.
        -- rewrite (segment_after_fetch_not_ok _ Hok). unfold consistent. cbn. auto.
      * rewrite segment_after_fetch_rejected. unfold consistent. cbn. auto.
    + (* the promise of res.json() settles *)
      pose proof H as H'. unfold consistent in H'. rewrite L in H'.
      destruct H' as (R & Er & s & P & [->|[res ->]]); rewrite P, nth_error_singleton;
        destruct i; try exact H.
      destruct c as [[q resp ld err] l snt h]. cbn in *. subst.
      unfold take_pending, run. cbn [cells pending sent history remove_nth].
      destruct (json_body res) as [data|e].
      * rewrite segment_after_json_fulfilled. unfold consistent. cbn. auto.
      * rewrite segment_after_json_rejected. unfold consistent. cbn. auto.
  - (* nothing is in flight *)
    pose proof H as H'. unfold consistent in H'. rewrite L in H'.
    destruct H' as (P & H').
    destruct ev as [v| |key|i r|i]; unfold dispatch; cbn [render input_disabled button_disabled];
      rewrite ?L, ?P.
    + unfold run, handleChange. cbn. unfold consistent. cbn. rewrite L. auto.
    + apply (consistent_submit c L H).
    + unfold handleKeyPress. rewrite L. cbn [negb]. rewrite andb_true_r.
      destruct (is_Enter key).
      * apply (consistent_submit c L H).
      * unfold run. cbn. rewrite app_nil_r. destruct c as [st l snt h]. exact H.
    + destruct i; exact H.
    + destruct i; exact H.
Qed.

Lemma reachable_consistent (c : Config) : reachable c -> consistent c.
Proof.
  induction 1 as [|ev c _ IH].
  - exact consistent_initial.
  - now apply consistent_dispatch.
Qed.

(** ** One lifecycle state at a time *)

(** C8, as stated, fails: after a successful search, emptying the input
    and clicking Search leaves the results panel and the error banner
    displayed together. *)
Lemma stale_result_with_error :
  reachable sample_stale
  /\ results_panel (render (cells sample_stale)) = true
  /\ error_panel (render (cells sample_stale)) = true
  /\ ~ (forall c, reachable c -> active_states (render (cells c)) = 1%nat).
Proof.
  assert (R : reachable sample_stale)
    by apply reachable_dispatch_all, reachable_initial.
  split; [exact R|]. split; [reflexivity|]. split; [reflexivity|].
  intros H. specialize (H sample_stale R). vm_compute in H. discriminate.
Qed.

(** C8, amended. In every configuration the controls let the page reach,
    exactly one of Idle, Loading, Success and Error is displayed, except
    that a result kept from an earlier search is displayed together with
    the error banner when that banner carries the validation message
    "Please enter a search query"; no other two are ever displayed
    together. *)
Theorem one_state_or_kept_result (c : Config) :
  reachable c ->
  active_states (render (cells c)) = 1%nat
  \/ (render (cells c) =
        {| input_disabled := false; button_disabled := false;
           searching := false; error_panel := true; results_panel := true;
           initial_panel := false |}
      /\ error (cells c) = Some (lit "Please enter a search query")).
Proof.
  intros R. apply reachable_consistent in R. unfold consistent in R.
  destruct c as [[q resp ld err] l snt h]. cbn [cells loading response error pending] in R.
  unfold active_states, render. cbn [cells loading response error searching
    results_panel error_panel initial_panel].
  destruct ld.
  - destruct R as (-> & -> & _). left. reflexivity.
  - destruct R as (_ & [T | [-> | ->]]).
    + rewrite T. left. destruct (error_truthy err); reflexivity.
    + left. destruct (truthy resp); reflexivity.
    + destruct (truthy resp).
      * right. split; reflexivity.
      * left. reflexivity.
Qed.

Lemma one_state_or_kept_result_witness :
  render (cells sample_stale) =
    {| input_disabled := false; button_disabled := false;
       searching := false; error_panel := true; results_panel := true;
       initial_panel := false |}
  /\ active_states (render (cells sample_searching)) = 1%nat.
Proof.
  split.
  - destruct (one_state_or_kept_result sample_stale) as [H|[H _]].
    + apply reachable_dispatch_all, reachable_initial.
    + vm_compute in H. discriminate.
    + exact H.
  - destruct (one_state_or_kept_result sample_searching) as [H|[H _]].
    + apply reachable_dispatch, reachable_dispatch, reachable_initial.
    + exact H.
    + vm_compute in H. discriminate.
Defined.

(** ** One request in flight *)

(** C9. While the loading flag is up, a click on the Search button and a
    key press in the input, Enter included, leave the page as it is, and
    [handleKeyPress] itself starts no search; hence the page never has more
    than one request in flight. *)
Theorem submit_ignored_while_loading (c : Config) :
  reachable c ->
  (List.length (pending c) <= 1)%nat
  /\ (loading (cells c) = true ->
      dispatch Click c = c
      /\ forall key, dispatch (KeyPress key) c = c
                     /\ handleKeyPress (cells c) key = Ret tt).
Proof.
  intros R. split.
  - apply reachable_consistent in R. unfold consistent in R.
    destruct (loading (cells c)).
    + destruct R as (_ & _ & s & -> & _). simpl. lia.
    + destruct R as (-> & _). simpl. lia.
  - intros L. unfold dispatch, handleKeyPress.
    cbn [render input_disabled button_disabled]. rewrite L.
    split; [reflexivity|]. intros key. split; [reflexivity|].
    now rewrite andb_false_r.
Qed.

Lemma submit_ignored_while_loading_witness :
  loading (cells sample_searching) = true
  /\ List.length (pending sample_searching) = 1%nat
  /\ dispatch Click sample_searching = sample_searching
  /\ dispatch (KeyPress (lit "Enter")) sample_searching = sample_searching.
Proof.
  assert (L : loading (cells sample_searching) = true) by reflexivity.
  destruct (submit_ignored_while_loading sample_searching) as (_ & H).
  - apply reachable_dispatch, reachable_dispatch, reachable_initial.
  - destruct (H L) as (H1 & H2).
    split; [exact L|]. split; [reflexivity|]. split; [exact H1|].
    exact (proj1 (H2 (lit "Enter"))).
Defined.

(** ** The page moves by the transitions of the lifecycle *)

Lemma config_eta (c : Config) :
  {| cells := cells c; pending := pending c; sent := sent c; history := history c |} = c.
Proof. destruct c; reflexivity. Qed.

Lemma caught_message_truthy (e : js_error) :
  string_truthy (caught_message e) = true.
Proof.
  unfold caught_message, or_else.
  destruct (message e) as [[|u m]|]; reflexivity.
Qed.

Lemma submit_step (c : Config) :
  loading (cells c) = false -> step c (submit c).
Proof.
  intros L. destruct (trim (query (cells c))) as [|u t] eqn:E.
  - rewrite (submit_empty _ E). rewrite L. now apply step_refuse.
  - assert (E' : trim (query (cells c)) <> []) by (rewrite E; discriminate).
    rewrite (submit_nonempty _ E'). now apply step_search.
Qed.

(** Every event either leaves a consistent page as it is or makes one
    transition. *)
Lemma dispatch_step (ev : event) (c : Config) :
  consistent c -> dispatch ev c = c \/ step c (dispatch ev c).
Proof.
  intros H. unfold consistent in H. destruct (loading (cells c)) eqn:L.
  - destruct H as (_ & _ & s & P & F).
    destruct ev as [v| |key|i r|i]; unfold dispatch;
      cbn [render input_disabled button_disabled]; rewrite ?L; auto;
      rewrite P, nth_error_singleton; destruct i; auto.
    + destruct F as [->|[res ->]]; auto. right.
      unfold take_pending, run. rewrite P. cbn [cells pending sent history remove_nth].
      destruct r as [res|e].
      * destruct (ok res) eqn:Hok.
        -- rewrite (segment_after_fetch_ok _ Hok). cbn [commit fold_left app].
           rewrite app_nil_r. now apply step_answer.
        -- rewrite (segment_after_fetch_not_ok _ Hok). cbn [app].
           apply step_close; [exact L|]. now apply closing_error.
      * rewrite segment_after_fetch_rejected. cbn [app].
        apply step_close; [exact L|]. apply closing_error, caught_message_truthy.
    + destruct F as [->|[res ->]]; auto. right.
      unfold take_pending, run. rewrite P. cbn [cells pending sent history remove_nth].
      destruct (json_body res) as [data|e].
      * rewrite segment_after_json_fulfilled. cbn [app].
        apply step_close; [exact L|]. apply closing_result.
      * rewrite segment_after_json_rejected. cbn [app].
        apply step_close; [exact L|]. apply closing_error, caught_message_truthy.
  - destruct H as (P & _).
    destruct ev as [v| |key|i r|i]; unfold dispatch;
      cbn [render input_disabled button_disabled]; rewrite ?L, ?P.
    + right. unfold run, handleChange. cbn. rewrite L. now apply step_edit.
    + right. now apply submit_step.
    + unfold handleKeyPress. rewrite L. cbn [negb]. rewrite andb_true_r.
      destruct (is_Enter key).
      * right. now apply submit_step.
      * left. unfold run. cbn. rewrite app_nil_r. apply config_eta.
    + left. destruct i; reflexivity.
    + left. destruct i; reflexivity.
Qed.

(** A property kept by every transition holds of every page the controls
    let the user reach. *)
Lemma reachable_ind_step (P : Config -> Prop) :
  P initial_config ->
  (forall c c', reachable c -> P c -> step c c' -> P c') ->
  forall c, reachable c -> P c.
Proof.
  intros H0 HS c R. induction R as [|ev c R IH].
  - exact H0.
  - destruct (dispatch_step ev c (reachable_consistent c R)) as [->|S].
    + exact IH.
    + exact (HS _ _ R IH S).
Qed.

(** ** More on trimming *)

Lemma trimStart_split (s : js_string) :
  exists a, s = a ++ trimStart s /\ forallb is_white_space a = true.
Proof.
  induction s as [|c s (a & E & W)]; simpl.
  - now exists [].
  - destruct (is_white_space c) eqn:Wc.
    + exists (c :: a). simpl. rewrite Wc, W. split; [now rewrite <- E | reflexivity].
    + now exists [].
Qed.

Lemma trimStart_head (s : js_string) (c : N) (t : js_string) :
  trimStart s = c :: t -> is_white_space c = false.
Proof.
  induction s as [|d s IH]; simpl; [discriminate|].
  destruct (is_white_space d) eqn:W; [exact IH|].
  intros [= <- _]. exact W.
Qed.

Lemma trimStart_idem (s : js_string) : trimStart (trimStart s) = trimStart s.
Proof.
  destruct (trimStart s) as [|c t] eqn:E; [reflexivity|].
  simpl. now rewrite (trimStart_head _ _ _ E).
Qed.

Lemma trimStart_snoc (l : js_string) (c : N) :
  is_white_space c = false -> trimStart (l ++ [c]) = trimStart l ++ [c].
Proof.
  intros W. induction l as [|d l IH]; simpl.
  - now rewrite W.
  - destruct (is_white_space d); [exact IH | reflexivity].
Qed.

Lemma trimEnd_cons (c : N) (t : js_string) :
  is_white_space c = false -> trimEnd (c :: t) = c :: trimEnd t.
Proof.
  intros W. unfold trimEnd. simpl. rewrite (trimStart_snoc _ _ W).
  rewrite rev_app_distr. reflexivity.
Qed.

Lemma trimEnd_idem (s : js_string) : trimEnd (trimEnd s) = trimEnd s.
Proof. unfold trimEnd. now rewrite rev_involutive, trimStart_idem. Qed.

Lemma trimEnd_split (s : js_string) :
  exists b, s = trimEnd s ++ b /\ forallb is_white_space b = true.
Proof.
  destruct (trimStart_split (rev s)) as (a & E & W).
  exists (rev a). split.
  - unfold trimEnd. rewrite <- rev_app_distr, <- E. now rewrite rev_involutive.
  - apply forallb_forall. intros x Hx. apply in_rev in Hx.
    now apply (proj1 (forallb_forall _ _) W).
Qed.

(** A trimmed string starts and ends with a code unit that is not white
    space. *)
Lemma trim_ends (s : js_string) :
  trim s <> [] ->
  is_white_space (hd 0 (trim s)) = false
  /\ is_white_space (last (trim s) 0) = false.
Proof.
  intros NE. unfold trim in *. split.
  - destruct (trimStart s) as [|c t] eqn:E; [now elim NE|].
    rewrite (trimEnd_cons _ _ (trimStart_head _ _ _ E)). simpl.
    exact (trimStart_head _ _ _ E).
  - unfold trimEnd in *.
    destruct (trimStart (rev (trimStart s))) as [|c t] eqn:E; [now elim NE|].
    simpl. rewrite last_last. exact (trimStart_head _ _ _ E).
Qed.

Lemma trim_idem (s : js_string) : trim (trim s) = trim s.
Proof.
  unfold trim. destruct (trimStart s) as [|c t] eqn:E; [reflexivity|].
  pose proof (trimStart_head _ _ _ E) as W.
  rewrite (trimEnd_cons _ _ W). simpl. rewrite W.
  rewrite (trimEnd_cons _ _ W). now rewrite trimEnd_idem.
Qed.

(** ** The keyboard *)

Lemma is_Enter_iff (key : js_string) : is_Enter key = true <-> key = lit "Enter".
Proof.
  unfold is_Enter. destruct (list_eq_dec N.eq_dec key (lit "Enter")); split;
    congruence.
Qed.

Lemma dispatch_key_press (c : Config) (key : js_string) :
  dispatch (KeyPress key) c = if is_Enter key then dispatch Click c else c.
Proof.
  unfold dispatch, handleKeyPress. cbn [render input_disabled button_disabled].
  destruct (loading (cells c)).
  - now destruct (is_Enter key).
  - cbn [negb]. rewrite andb_true_r. destruct (is_Enter key); [reflexivity|].
    unfold run. cbn. rewrite app_nil_r. apply config_eta.
Qed.

(** X1. On every page, pressing Enter in the input does exactly what a
    click on Search does, and pressing any other key changes nothing: no
    setter is called and no request is sent. *)
Theorem key_press_is_click_on_enter (c : Config) (key : js_string) :
  dispatch (KeyPress (lit "Enter")) c = dispatch Click c
  /\ (key <> lit "Enter" -> dispatch (KeyPress key) c = c).
Proof.
  split.
  - now rewrite dispatch_key_press.
  - intros NE. rewrite dispatch_key_press.
    destruct (is_Enter key) eqn:E; [|reflexivity].
    apply is_Enter_iff in E. contradiction.
Qed.

Lemma key_press_is_click_on_enter_witness :
  dispatch (KeyPress (lit "a")) sample_typed = sample_typed
  /\ dispatch (KeyPress (lit "Enter")) sample_typed = sample_searching.
Proof.
  destruct (key_press_is_click_on_enter sample_typed (lit "a")) as (H1 & H2).
  split; [apply H2; discriminate | exact H1].
Defined.

(** X2. A click on Search, or Enter in the input, never leaves the "Ready
    to search" panel on the page: the page then shows the spinner or an
    error banner. *)
Theorem search_hides_initial_panel (c : Config) (ev : event) :
  asks_search ev = true ->
  initial_panel (render (cells (dispatch ev c))) = false
  /\ (searching (render (cells (dispatch ev c))) = true
      \/ error_panel (render (cells (dispatch ev c))) = true).
Proof.
  intros A.
  assert (E : dispatch ev c = dispatch Click c).
  { destruct ev as [v| |key|i r|i]; try discriminate; [reflexivity|].
    rewrite dispatch_key_press. cbn in A. now rewrite A. }
  rewrite E. clear E A ev.
  unfold dispatch. cbn [render input_disabled button_disabled].
  destruct (loading (cells c)) eqn:L.
  - unfold render. cbn. rewrite L. cbn. rewrite andb_false_r. auto.
  - fold (submit c). destruct (trim (query (cells c))) as [|u t] eqn:T.
    + rewrite (submit_empty _ T). unfold render. cbn. rewrite andb_false_r. auto.
    + assert (T' : trim (query (cells c)) <> []) by (rewrite T; discriminate).
      rewrite (submit_nonempty _ T'). cbn. auto.
Qed.

Lemma search_hides_initial_panel_witness :
  initial_panel (render (cells initial_config)) = true
  /\ initial_panel (render (cells (dispatch (KeyPress (lit "Enter")) initial_config))) = false.
Proof.
  split; [reflexivity|].
  exact (proj1 (search_hides_initial_panel initial_config (KeyPress (lit "Enter")) eq_refl)).
Defined.

(** ** Requests in flight *)

(** X3. On every page the controls let the user reach, the loading flag
    (the spinner, the disabled input and button) is up exactly while a
    request is in flight, and then exactly one is. *)
Theorem loading_iff_in_flight (c : Config) :
  reachable c ->
  List.length (pending c) = (if loading (cells c) then 1 else 0)%nat
  /\ button_disabled (render (cells c)) = negb (Nat.eqb (List.length (pending c)) 0)
  /\ input_disabled (render (cells c)) = negb (Nat.eqb (List.length (pending c)) 0).
Proof.
  intros R. apply reachable_consistent in R. unfold consistent in R.
  unfold render. cbn [button_disabled input_disabled].
  destruct (loading (cells c)).
  - destruct R as (_ & _ & s & -> & _). repeat split.
  - destruct R as (-> & _). repeat split.
Qed.

Lemma loading_iff_in_flight_witness :
  List.length (pending sample_searching) = 1%nat
  /\ button_disabled (render (cells sample_searching)) = true
  /\ List.length (pending sample_failed) = 0%nat
  /\ button_disabled (render (cells sample_failed)) = false.
Proof.
  destruct (loading_iff_in_flight sample_searching) as (H1 & H2 & _).
  { apply reachable_dispatch, reachable_dispatch, reachable_initial. }
  destruct (loading_iff_in_flight sample_failed) as (H3 & H4 & _).
  { unfold sample_failed, resolve, sample_searching, sample_typed.
    repeat apply reachable_dispatch. apply reachable_initial. }
  split; [exact H1|]. split; [rewrite H2, H1; reflexivity|].
  split; [exact H3|]. rewrite H4, H3. reflexivity.
Defined.



(** ** The error message *)

(** X5. On every page the controls let the user reach, the error cell is
    [null] or a non-empty text: whenever an error is stored the banner is
    displayed, with a message to read. *)
Theorem stored_error_is_displayed (c : Config) (m : js_string) :
  reachable c ->
  error (cells c) = Some m ->
  m <> [] /\ error_panel (render (cells c)) = true.
Proof.
  intros R. revert m.
  assert (G : forall m, error (cells c) = Some m -> string_truthy m = true).
  { induction R as [|c c' R IH S] using reachable_ind_step.
    - discriminate.
    - destruct S as [v L|L T|L T|res L P Hok|us L C]; cbn [cells error]; auto.
      + intros m [= <-]. reflexivity.
      + discriminate.
      + destruct C as [m' Hm|data]; cbn.
        * intros m [= <-]. exact Hm.
        * exact IH. }
  intros m E. pose proof (G m E) as T. split.
  - destruct m; [discriminate | discriminate].
  - unfold render. cbn. rewrite E. exact T.
Qed.

Lemma stored_error_is_displayed_witness :
  error (cells sample_failed) = Some (lit "HTTP error! status: 404")
  /\ error_panel (render (cells sample_failed)) = true.
Proof.
  assert (E : error (cells sample_failed) = Some (lit "HTTP error! status: 404"))
    by reflexivity.
  split; [exact E|].
  refine (proj2 (stored_error_is_displayed sample_failed _ _ E)).
  unfold sample_failed, resolve, sample_searching, sample_typed.
  repeat apply reachable_dispatch. apply reachable_initial.
Defined.

(** ** The journals *)

Lemma count_closing (us : list update) :
  closing_updates us ->
  List.length (filter raises_loading us) = 0%nat
  /\ List.length (filter clears_loading us) = 1%nat.
Proof. intros [m Hm|data]; split; reflexivity. Qed.

(** X6. On every page the controls let the user reach, the requests sent
    so far are as many as the times the loading flag was raised, and
    each of them has had the flag cleared exactly once, except the one
    still in flight. *)
Theorem requests_match_loading (c : Config) :
  reachable c ->
  List.length (sent c) = List.length (filter raises_loading (history c))
  /\ List.length (sent c) =
       (List.length (filter clears_loading (history c)) + List.length (pending c))%nat.
Proof.
  intros R. induction R as [|c c' R IH S] using reachable_ind_step.
  - split; reflexivity.
  - pose proof (reachable_consistent c R) as K. unfold consistent in K.
    destruct IH as (IH1 & IH2).
    destruct S as [v L|L T|L T|res L P Hok|us L C];
      cbn [sent history pending]; rewrite ?filter_app, ?length_app; cbn.
    + lia.
    + lia.
    + lia.
    + rewrite P in IH2. cbn in IH2. lia.
    + rewrite L in K. destruct K as (_ & _ & s & P & _).
      rewrite P in IH2. cbn in IH2.
      destruct (count_closing us C) as (C1 & C2).
      rewrite C1, C2. lia.
Qed.

Lemma requests_match_loading_witness :
  List.length (sent sample_failed) = 1%nat
  /\ List.length (filter raises_loading (history sample_failed)) = 1%nat
  /\ List.length (filter clears_loading (history sample_failed)) = 1%nat.
Proof.
  destruct (requests_match_loading sample_failed) as (H1 & H2).
  { unfold sample_failed, resolve, sample_searching, sample_typed.
    repeat apply reachable_dispatch. apply reachable_initial. }
  assert (S : List.length (sent sample_failed) = 1%nat) by reflexivity.
  split; [exact S|]. split.
  - rewrite <- H1. exact S.
  - rewrite S in H2. change (pending sample_failed) with (@nil Suspended) in H2.
    cbn [List.length] in H2. rewrite Nat.add_0_r in H2. now symmetry.
Defined.

(** X7. Every request the page has ever sent is the POST of [handleSearch]
    whose [query] is not empty and carries no white space at either end:
    a blank query never reaches the network. *)
Theorem sent_queries_are_trimmed (c : Config) :
  reachable c ->
  Forall (fun req => exists q, req = search_request q /\ q <> [] /\ trim q = q
                               /\ forallb is_white_space q = false)
         (sent c).
Proof.
  intros R. induction R as [|c c' R IH S] using reachable_ind_step.
  - constructor.
  - destruct S as [v L|L T|L T|res L P Hok|us L C]; cbn [sent]; auto.
    apply Forall_app. split; [exact IH|]. constructor; [|constructor].
    exists (trim (query (cells c))). split; [reflexivity|]. split; [exact T|].
    split; [apply trim_idem|].
    destruct (forallb is_white_space (trim (query (cells c)))) eqn:W; [|reflexivity].
    apply trim_nil_iff in W. rewrite trim_idem in W. contradiction.
Qed.

Lemma sent_queries_are_trimmed_witness :
  Forall (fun req => exists q, req = search_request q /\ q <> [] /\ trim q = q
                               /\ forallb is_white_space q = false)
         (sent sample_failed)
  /\ sent sample_failed = [search_request (lit "contract law")].
Proof.
  split; [|reflexivity].
  apply (sent_queries_are_trimmed sample_failed).
  unfold sample_failed, resolve, sample_searching, sample_typed.
  repeat apply reachable_dispatch. apply reachable_initial.
Defined.

(** X8. The [query] of the request a submission sends is the text of the
    input with white space removed at both ends and nothing else: the
    input is that query between two runs of white space, and the query
    starts and ends with a code unit that is not white space. *)
Theorem sent_query_is_input_core (c : Config) :
  trim (query (cells c)) <> [] ->
  exists q a b,
    sent (submit c) = sent c ++ [search_request q]
    /\ query (cells c) = a ++ q ++ b
    /\ forallb is_white_space a = true
    /\ forallb is_white_space b = true
    /\ is_white_space (hd 0 q) = false
    /\ is_white_space (last q 0) = false.
Proof.
  intros T.
  destruct (trimStart_split (query (cells c))) as (a & Ea & Wa).
  destruct (trimEnd_split (trimStart (query (cells c)))) as (b & Eb & Wb).
  exists (trim (query (cells c))), a, b.
  split; [rewrite (submit_nonempty _ T); reflexivity|].
  split; [unfold trim; now rewrite <- Eb|].
  split; [exact Wa|]. split; [exact Wb|]. now apply trim_ends.
Qed.

Lemma sent_query_is_input_core_witness :
  exists q a b,
    sent (submit sample_typed) = sent sample_typed ++ [search_request q]
    /\ query (cells sample_typed) = a ++ q ++ b
    /\ forallb is_white_space a = true
    /\ forallb is_white_space b = true
    /\ is_white_space (hd 0 q) = false
    /\ is_white_space (last q 0) = false.
Proof.
  apply (sent_query_is_input_core sample_typed). discriminate.
Defined.

(** ** What stays on the page *)

(** X9. An error banner or a results panel on the page stays there until
    the next search that passes validation: the only event after which it
    is gone is a click on Search, or Enter, with an input that is not
    blank. Editing the input, other keys and blank submissions keep it. *)
Theorem panels_stay_until_next_search (c : Config) (ev : event) :
  reachable c ->
  (error_panel (render (cells c)) = true
   /\ error_panel (render (cells (dispatch ev c))) = false)
  \/ (results_panel (render (cells c)) = true
      /\ results_panel (render (cells (dispatch ev c))) = false) ->
  asks_search ev = true
  /\ trim (query (cells c)) <> []
  /\ loading (cells (dispatch ev c)) = true.
Proof.
  intros R H. apply reachable_consistent in R. unfold consistent in R.
  unfold render in H. cbn [error_panel results_panel] in H.
  destruct (loading (cells c)) eqn:L.
  { destruct R as (Rr & Re & _). rewrite Rr, Re in H. cbn in H.
    destruct H as [[H _]|[H _]]; discriminate. }
  destruct R as (P & _).
  assert (Same : forall c', error (cells c') = error (cells c) ->
                            response (cells c') = response (cells c) ->
                            dispatch ev c = c' -> False).
  { intros c' E1 E2 E. rewrite E, E1, E2 in H.
    destruct H as [[A B]|[A B]]; rewrite A in B; discriminate. }
  destruct (asks_search ev) eqn:A.
  - assert (E : dispatch ev c = submit c).
    { destruct ev as [v| |key|i r|i]; try discriminate.
      - unfold dispatch. cbn [render button_disabled]. now rewrite L.
      - rewrite dispatch_key_press. cbn in A. rewrite A.
        unfold dispatch. cbn [render button_disabled]. now rewrite L. }
    destruct (trim (query (cells c))) as [|u t] eqn:T.
    + exfalso. rewrite E, (submit_empty _ T) in H. cbn in H.
      destruct H as [[_ B]|[B1 B2]]; [discriminate|].
      rewrite B1 in B2. discriminate.
    + split; [reflexivity|]. split; [discriminate|].
      assert (T' : trim (query (cells c)) <> []) by (rewrite T; discriminate).
      rewrite E, (submit_nonempty _ T'). reflexivity.
  - exfalso. destruct ev as [v| |key|i r|i]; try discriminate.
    + apply (Same (dispatch (Change v) c)); [| |reflexivity];
        unfold dispatch; cbn [render input_disabled]; rewrite L; reflexivity.
    + cbn in A. apply (Same c); [reflexivity|reflexivity|].
      rewrite dispatch_key_press. now rewrite A.
    + apply (Same c); [reflexivity|reflexivity|].
      unfold dispatch. rewrite P. now destruct i.
    + apply (Same c); [reflexivity|reflexivity|].
      unfold dispatch. rewrite P. now destruct i.
Qed.

Lemma panels_stay_until_next_search_witness :
  error_panel (render (cells sample_failed)) = true
  /\ error_panel (render (cells (dispatch Click sample_failed))) = false
  /\ trim (query (cells sample_failed)) <> []
  /\ loading (cells (dispatch Click sample_failed)) = true.
Proof.
  assert (H1 : error_panel (render (cells sample_failed)) = true) by reflexivity.
  assert (H2 : error_panel (render (cells (dispatch Click sample_failed))) = false)
    by reflexivity.
  destruct (panels_stay_until_next_search sample_failed Click) as (_ & H3 & H4).
  - unfold sample_failed, resolve, sample_searching, sample_typed.
    repeat apply reachable_dispatch. apply reachable_initial.
  - left. split; [exact H1 | exact H2].
  - split; [exact H1|]. split; [exact H2|]. split; [exact H3 | exact H4].
Defined.

(** ** The results panel *)



Lemma render_card_fields (doc : json) (card : Card) :
  render_card doc = Some card ->
  get doc (lit "title") = Some (card_title card)
  /\ get doc (lit "excerpt") = Some (card_excerpt card)
  /\ get doc (lit "relevance_score") = Some (card_relevance_of card)
  /\ get doc (lit "doc_id") = Some (card_doc_id card).
Proof.
  unfold render_card.
  destruct (get doc (lit "title")) as [t|]; [|discriminate].
  destruct (get doc (lit "excerpt")) as [e|]; [|discriminate].
  destruct (get doc (lit "relevance_score")) as [s|]; [|discriminate].
  destruct (get doc (lit "doc_id")) as [i|]; [|discriminate].
  destruct (child_ok t && child_ok e && child_ok i); [|discriminate].
  intros [= <-]. repeat split.
Qed.

(** X10. When the results panel renders, it shows one card for each
    element of [relevant_docs], in the order received, each with the
    [title], [excerpt], [relevance_score] and [doc_id] of its own document,
    and the [summary] of the response above them. *)
Theorem results_follow_documents (data : json) (panel : Results) :
  render_results data = Some panel ->
  exists docs,
    get data (lit "relevant_docs") = Some (Some (JArray docs))
    /\ get data (lit "summary") = Some (summary_child panel)
    /\ List.length (cards panel) = List.length docs
    /\ map (fun doc => get doc (lit "title")) docs
       = map (fun card => Some (card_title card)) (cards panel)
    /\ map (fun doc => get doc (lit "excerpt")) docs
       = map (fun card => Some (card_excerpt card)) (cards panel)
    /\ map (fun doc => get doc (lit "relevance_score")) docs
       = map (fun card => Some (card_relevance_of card)) (cards panel)
    /\ map (fun doc => get doc (lit "doc_id")) docs
       = map (fun card => Some (card_doc_id card)) (cards panel).
Proof.
  unfold render_results.
  destruct (get data (lit "summary")) as [summary|]; [|discriminate].
  destruct (get data (lit "relevant_docs")) as [[[| | | |docs|]|]|]; try discriminate.
  destruct (map_throwing render_card docs) as [cs|] eqn:M; [|discriminate].
  destruct (child_ok summary); [|discriminate].
  intros [= <-]. exists docs. cbn [summary_child cards].
  split; [reflexivity|]. split; [reflexivity|].
  assert (F : Forall2 (fun doc card => render_card doc = Some card) docs cs).
  { clear - M. revert cs M. induction docs as [|d docs IH]; simpl; intros cs.
    - intros [= <-]. constructor.
    - destruct (render_card d) as [cd|] eqn:E; [|discriminate].
      destruct (map_throwing render_card docs) as [cs'|]; [|discriminate].
      intros [= <-]. constructor; [exact E | now apply IH]. }
  split; [symmetry; exact (Forall2_length F)|].
  clear M. induction F as [|d cd docs cs E F IH].
  - repeat split.
  - destruct (render_card_fields _ _ E) as (E1 & E2 & E3 & E4).
    destruct IH as (I1 & I2 & I3 & I4). simpl.
    rewrite E1, E2, E3, E4, I1, I2, I3, I4. repeat split.
Qed.

Lemma results_follow_documents_witness :
  exists panel,
    render_results sample_full_body = Some panel
    /\ List.length (cards panel) = 2%nat
    /\ summary_child panel = Some (JString (lit "Contracts require offer.")).
Proof.
  destruct (render_results sample_full_body) as [panel|] eqn:E; [|discriminate E].
  exists panel. split; [reflexivity|].
  destruct (results_follow_documents _ _ E) as (docs & D & S & L & _).
  change (get sample_full_body (lit "relevant_docs"))
    with (Some (Some (JArray [sample_document; sample_document]))) in D.
  change (get sample_full_body (lit "summary"))
    with (Some (Some (JString (lit "Contracts require offer.")))) in S.
  injection D as <-. injection S as <-. split; [exact L | reflexivity].
Defined.



(** X12. [handleSearch] does not check the shape of a success body: when
    a response with a success status decodes to a truthy value whose
    [relevant_docs] is not an array (an empty object, say), the page ends
    with that value in the response cell and no error message, and
    rendering the results panel throws. *)
Theorem shapeless_success_breaks_render (c : Config) (res : Response) (data : json) :
  trim (query (cells c)) <> [] ->
  ok res = true ->
  json_body res = Fulfilled data ->
  truthy data = true ->
  (forall docs, get data (lit "relevant_docs") <> Some (Some (JArray docs))) ->
  let c' := resolve (List.length (pending c)) (Fulfilled res) (submit c) in
  response (cells c') = data
  /\ error (cells c') = None
  /\ loading (cells c') = false
  /\ results_section (cells c') = None.
Proof.
  intros T Hok Hbody Tr Shape c'. subst c'. rewrite (resolve_submit _ _ T).
  unfold settle_updates. rewrite Hok, Hbody. cbn.
  split; [reflexivity|]. split; [reflexivity|]. split; [reflexivity|].
  unfold results_section. cbn [response]. rewrite Tr.
  unfold render_results.
  destruct (get data (lit "summary")) as [summary|]; [|reflexivity].
  destruct (get data (lit "relevant_docs")) as [[[| | | |docs|]|]|] eqn:G;
    try reflexivity.
  elim (Shape docs). reflexivity.
Qed.

Lemma shapeless_success_breaks_render_witness :
  error (cells (resolve 0 (Fulfilled sample_shapeless) (submit sample_typed))) = None
  /\ results_section (cells (resolve 0 (Fulfilled sample_shapeless) (submit sample_typed)))
     = None.
Proof.
  destruct (shapeless_success_breaks_render sample_typed sample_shapeless
              (JObject [(lit "detail", JString (lit "no documents"))]))
    as (_ & H2 & _ & H4); try reflexivity; try discriminate.
  split; [exact H2 | exact H4].
Defined.

(** ** The input text *)

(** X13. On every page the controls let the user reach, the stored query
    text changes only when the user edits the input, which the page allows
    only while no request is in flight: clicks, key presses, submissions
    and the settlement of a request leave it as typed. *)
Theorem only_editing_changes_query (c : Config) (ev : event) :
  reachable c ->
  query (cells (dispatch ev c)) <> query (cells c) ->
  exists v, ev = Change v
            /\ loading (cells c) = false
            /\ query (cells (dispatch ev c)) = v.
Proof.
  intros R D. pose proof (reachable_consistent c R) as K.
  destruct (loading (cells c)) eqn:L.
  - exfalso. apply D.
    destruct (dispatch_step ev c K) as [->|S]; [reflexivity|].
    destruct S as [v L'|L' T|L' T|res L' P Hok|us L' C]; try congruence.
    + reflexivity.
    + destruct C; reflexivity.
  - unfold consistent in K. rewrite L in K. destruct K as (P & _).
    assert (Q : query (cells (submit c)) = query (cells c)).
    { destruct (trim (query (cells c))) as [|u t] eqn:T.
      - rewrite (submit_empty _ T). reflexivity.
      - assert (T' : trim (query (cells c)) <> []) by (rewrite T; discriminate).
        rewrite (submit_nonempty _ T'). reflexivity. }
    assert (Cl : dispatch Click c = submit c).
    { unfold dispatch. cbn [render button_disabled]. now rewrite L. }
    destruct ev as [v| |key|i r|i].
    + exists v. split; [reflexivity|]. split; [reflexivity|].
      unfold dispatch. cbn [render input_disabled]. rewrite L. reflexivity.
    + exfalso. apply D. now rewrite Cl.
    + exfalso. apply D. rewrite dispatch_key_press.
      destruct (is_Enter key); [now rewrite Cl | reflexivity].
    + exfalso. apply D. unfold dispatch. rewrite P. now destruct i.
    + exfalso. apply D. unfold dispatch. rewrite P. now destruct i.
Qed.

Lemma only_editing_changes_query_witness :
  exists v, Change (lit "tort") = Change v
            /\ loading (cells sample_typed) = false
            /\ query (cells (dispatch (Change (lit "tort")) sample_typed)) = v.
Proof.
  apply (only_editing_changes_query sample_typed (Change (lit "tort"))).
  - apply reachable_dispatch, reachable_initial.
  - discriminate.
Defined.
